(** * Generate API V1 routes ([fooocusapi/routes/generate_v1.py])

    The module is routing glue: seven endpoint functions registered on
    one [APIRouter], each of which marshals its arguments and hands them
    to code imported from other modules ([call_worker], [process_stop],
    [read_input_image], [HWC3], the two interrogators, which
    [describe_image] imports when it is called,
    [generate_mask_from_image]).

    The imported functions are not part of this module.  They are
    modelled as _events_: an endpoint function is a finite tree whose
    nodes are calls into collaborator code and whose leaves are the
    values it returns.  An environment answers every call with a value
    or with an exception and threads its own state; running a tree
    yields the outcome, the final state, and the list of calls made. *)

From Stdlib Require Import String List Floats.
From Stdlib Require Import Strings.Byte.
From stdpp Require Import base option list strings gmap.

Local Open Scope string_scope.

(** ** Types owned by collaborator modules *)

(** The request and response classes, numpy arrays, the mask value and
    Python exceptions are defined outside this module and are never
    inspected by it; they are the parameters of the development.  One
    exception is known by name: the built-in [TypeError], which [len]
    raises on an object without a length. *)
Class Collaborators := {
  Text2ImgRequest : Type;              (* CommonRequest, line 13 *)
  ImgUpscaleOrVaryRequest : Type;
  ImgInpaintOrOutpaintRequest : Type;
  ImgPromptRequest : Type;
  WorkerResponse : Type;               (* what call_worker returns *)
  ndarray : Type;                      (* decoded image *)
  Mask : Type;                         (* what generate_mask_from_image returns *)
  Exception : Type;                    (* a raised Python exception *)
  TypeError : Exception                (* builtins.TypeError *)
}.

(** [DescribeImageType] is declared in [fooocusapi.models.common.base];
    the endpoint's parameter description names its members, 'Photo' and
    'Anime'. *)
Inductive DescribeImageType := photo | anime.

#[global] Instance DescribeImageType_eq_dec : EqDecision DescribeImageType.
Proof. solve_decision. Defined.

(** Starlette's [UploadFile]: the client's file name (optional) and the
    spooled file behind it, which is only ever touched through calls. *)
Record UploadFile := { filename : option string; file : nat }.

(** Python values that end up in the dictionaries built here. *)
Inductive pyval `{Collaborators} :=
| PNone
| PStr (s : string)
| PFloat (x : float)
| PMask (m : Mask).

Record DescribeImageResponse := { describe : string }.
Record StopResponse := { msg : string }.

(** ** Effects *)

Section Effects.
Context `{Collaborators}.

(** An object handed to [call_worker] carries its class. *)
Inductive request :=
| Text2Img (req : Text2ImgRequest)
| ImgUpscaleOrVary (req : ImgUpscaleOrVaryRequest)
| ImgInpaintOrOutpaint (req : ImgInpaintOrOutpaintRequest)
| ImgPrompt (req : ImgPromptRequest).

(** The two callables an [interrogator] variable can be bound to. *)
Inductive interrogator_fn :=
| default_interrogator_photo     (* extras.interrogate *)
| default_interrogator_anime.    (* extras.wd14tagger *)

(** Calls that leave this module, indexed by the type of their result.
    [import_interrogator f] is the statement
    [from extras.... import default_interrogator as f] on line 168 or
    171: it runs the collaborator's module code when the handler is
    called, and can raise. *)
Inductive ext : Type -> Type :=
| call_worker (req : request) (accept : option string) : ext WorkerResponse
| import_interrogator (f : interrogator_fn) : ext unit
| process_stop : ext unit
| read_input_image (image : UploadFile) : ext ndarray
| HWC3 (x : ndarray) : ext ndarray
| interrogate (f : interrogator_fn) (img : ndarray) : ext string
| UploadFile_read (image : UploadFile) : ext (list byte)
| generate_mask_from_image
    (image_data : list byte) (mask_model : string)
    (extras : gmap string pyval) : ext Mask.

(** Endpoint code: return, raise, or call out and continue. *)
Inductive Prog (A : Type) : Type :=
| Ret (a : A)
| Raise (e : Exception)
| Vis {X : Type} (c : ext X) (k : X -> Prog A).

#[global] Arguments Ret {A} a.
#[global] Arguments Raise {A} e.
#[global] Arguments Vis {A X} c k.

Fixpoint bind {A B} (p : Prog A) (f : A -> Prog B) : Prog B :=
  match p with
  | Ret a => f a
  | Raise e => Raise e
  | Vis c k => Vis c (fun x => bind (k x) f)
  end.

Definition trigger {X} (c : ext X) : Prog X := Vis c Ret.

(** One entry of the call log: the call and how it ended. *)
Inductive call :=
| Call {X : Type} (c : ext X) (out : Exception + X).

Section Run.
Context {World : Type}.
Variable oracle : forall X, ext X -> World -> (Exception + X) * World.

Fixpoint run {A} (p : Prog A) (w : World)
  : (Exception + A) * World * list call :=
  match p with
  | Ret a => (inr a, w, [])
  | Raise e => (inl e, w, [])
  | Vis c k =>
      let '(out, w1) := oracle _ c w in
      match out with
      | inl e => (inl e, w1, [Call c out])
      | inr x =>
          let '(r, w2, t) := run (k x) w1 in
          (r, w2, Call c out :: t)
      end
  end.
End Run.
End Effects.

#[global] Instance Prog_ret `{Collaborators} : MRet Prog := @Ret _.
#[global] Instance Prog_bind `{Collaborators} : MBind Prog :=
  fun A B f p => bind p f.

(** ** The endpoint functions *)

Section Endpoints.
Context `{Collaborators}.

(** [stop_worker], lines 36-38. *)
Definition stop_worker : Prog unit :=
  trigger process_stop.

(** Python's [x is not None]. *)
Definition is_not_None {A} (x : option A) : bool :=
  match x with
  | Some _ => true
  | None => false
  end.

(** Python's [len] on a [str | None]: the length of a string, and a
    [TypeError] raised here, by the statement that calls it, on [None]. *)
Definition len (x : option string) : Prog nat :=
  match x with
  | Some s => mret (String.length s)
  | None => Raise TypeError
  end.

(** [text2img_generation], lines 46-64.  [accept] is the Accept header
    ([Header(None)]), [accept_query] the query parameter aliased
    'accept' ([Query(None)]); Python's [None] is Rocq's [None].  The
    condition on line 61 is an [and]: [len] is evaluated only when its
    left operand holds. *)
Definition text2img_generation
    (req : Text2ImgRequest)
    (accept : option string) (accept_query : option string)
  : Prog WorkerResponse :=
  overrides ←
    (if is_not_None accept_query
     then n ← len accept_query; mret (0 <? n)%nat
     else mret false);
  let accept := if overrides : bool then accept_query else accept in
  trigger (call_worker (Text2Img req) accept).

(** [img_upscale_or_vary], lines 72-92. *)
Definition img_upscale_or_vary
    (input_image : UploadFile)
    (req : ImgUpscaleOrVaryRequest)
    (accept : option string) (accept_query : option string)
  : Prog WorkerResponse :=
  overrides ←
    (if is_not_None accept_query
     then n ← len accept_query; mret (0 <? n)%nat
     else mret false);
  let accept := if overrides : bool then accept_query else accept in
  trigger (call_worker (ImgUpscaleOrVary req) accept).

(** [img_inpaint_or_outpaint], lines 100-118. *)
Definition img_inpaint_or_outpaint
    (input_image : UploadFile)
    (req : ImgInpaintOrOutpaintRequest)
    (accept : option string) (accept_query : option string)
  : Prog WorkerResponse :=
  overrides ←
    (if is_not_None accept_query
     then n ← len accept_query; mret (0 <? n)%nat
     else mret false);
  let accept := if overrides : bool then accept_query else accept in
  trigger (call_worker (ImgInpaintOrOutpaint req) accept).

(** [img_prompt], lines 126-147. *)
Definition img_prompt
    (cn_img1 : option UploadFile)
    (req : ImgPromptRequest)
    (accept : option string) (accept_query : option string)
  : Prog WorkerResponse :=
  overrides ←
    (if is_not_None accept_query
     then n ← len accept_query; mret (0 <? n)%nat
     else mret false);
  let accept := if overrides : bool then accept_query else accept in
  trigger (call_worker (ImgPrompt req) accept).

(** [describe_image], lines 154-175.  Each branch imports its
    interrogator when the handler runs and binds the name
    [interrogator]; the image is read after that, and the interrogator is
    called on line 174. *)
Definition describe_image
    (image : UploadFile) (image_type : DescribeImageType)
  : Prog DescribeImageResponse :=
  interrogator ←
    (if decide (image_type = photo) then
       trigger (import_interrogator default_interrogator_photo);;
       mret default_interrogator_photo
     else
       trigger (import_interrogator default_interrogator_anime);;
       mret default_interrogator_anime);
  x ← trigger (read_input_image image);
  img ← trigger (HWC3 x);
  result ← trigger (interrogate interrogator img);
  mret {| describe := result |}.

(** [generate_mask_route], lines 185-219.  [await image.read()] is a
    call like the others; [extras] starts as the empty dict and is filled
    by item assignment. *)
Definition generate_mask_route
    (image : UploadFile) (mask_model : string) (cloth_category : string)
    (sam_prompt_text : string) (sam_model : string) (sam_quant : string)
    (box_threshold : float) (text_threshold : float)
  : Prog (gmap string pyval) :=
  image_data ← trigger (UploadFile_read image);
  let extras : gmap string pyval := ∅ in
  let extras :=
    if decide (mask_model = "u2net_cloth_seg") then
      <["cloth_category" := PStr cloth_category]> extras
    else if decide (mask_model = "sam") then
      let extras := <["sam_prompt_text" := PStr sam_prompt_text]> extras in
      let extras := <["sam_model" := PStr sam_model]> extras in
      let extras := <["sam_quant" := PStr sam_quant]> extras in
      let extras := <["box_threshold" := PFloat box_threshold]> extras in
      <["text_threshold" := PFloat text_threshold]> extras
    else extras in
  mask ← trigger (generate_mask_from_image image_data mask_model extras);
  mret (<["mask" := PMask mask]>
         (<["filename" := from_option PStr PNone (filename image)]> ∅)).

(** [stop], lines 226-229. *)
Definition stop : Prog StopResponse :=
  stop_worker;;
  mret {| msg := "success" |}.

End Endpoints.

(** ** Requests as the framework binds them *)

Section Invocations.
Context `{Collaborators}.

(** A bound request to one of the four generation endpoints: the endpoint
    together with the arguments of its signature. *)
Inductive generation_request :=
| to_text2img_generation
    (req : Text2ImgRequest) (accept accept_query : option string)
| to_img_upscale_or_vary
    (input_image : UploadFile) (req : ImgUpscaleOrVaryRequest)
    (accept accept_query : option string)
| to_img_inpaint_or_outpaint
    (input_image : UploadFile) (req : ImgInpaintOrOutpaintRequest)
    (accept accept_query : option string)
| to_img_prompt
    (cn_img1 : option UploadFile) (req : ImgPromptRequest)
    (accept accept_query : option string).

Definition handle_generation (g : generation_request) : Prog WorkerResponse :=
  match g with
  | to_text2img_generation req accept accept_query =>
      text2img_generation req accept accept_query
  | to_img_upscale_or_vary input_image req accept accept_query =>
      img_upscale_or_vary input_image req accept accept_query
  | to_img_inpaint_or_outpaint input_image req accept accept_query =>
      img_inpaint_or_outpaint input_image req accept accept_query
  | to_img_prompt cn_img1 req accept accept_query =>
      img_prompt cn_img1 req accept accept_query
  end.

(** The parsed request object, the Accept header and the 'accept' query
    parameter of a bound generation request. *)
Definition parsed_request (g : generation_request) : request :=
  match g with
  | to_text2img_generation req _ _ => Text2Img req
  | to_img_upscale_or_vary _ req _ _ => ImgUpscaleOrVary req
  | to_img_inpaint_or_outpaint _ req _ _ => ImgInpaintOrOutpaint req
  | to_img_prompt _ req _ _ => ImgPrompt req
  end.

Definition header_accept (g : generation_request) : option string :=
  match g with
  | to_text2img_generation _ accept _
  | to_img_upscale_or_vary _ _ accept _
  | to_img_inpaint_or_outpaint _ _ accept _
  | to_img_prompt _ _ accept _ => accept
  end.

Definition query_accept (g : generation_request) : option string :=
  match g with
  | to_text2img_generation _ _ accept_query
  | to_img_upscale_or_vary _ _ _ accept_query
  | to_img_inpaint_or_outpaint _ _ _ accept_query
  | to_img_prompt _ _ _ accept_query => accept_query
  end.

(** A bound request to any endpoint of the module. *)
Inductive invocation :=
| Generation (g : generation_request)
| DescribeImage (image : UploadFile) (image_type : DescribeImageType)
| GenerateMask
    (image : UploadFile) (mask_model cloth_category : string)
    (sam_prompt_text sam_model sam_quant : string)
    (box_threshold text_threshold : float)
| Stop.

(** What an endpoint function returns to the framework. *)
Inductive returned :=
| RWorker (r : WorkerResponse)
| RDescribe (d : DescribeImageResponse)
| RDict (d : gmap string pyval)
| RStop (s : StopResponse).

Definition endpoint (inv : invocation) : Prog returned :=
  match inv with
  | Generation g => r ← handle_generation g; mret (RWorker r)
  | DescribeImage image image_type =>
      d ← describe_image image image_type; mret (RDescribe d)
  | GenerateMask image mask_model cloth_category
      sam_prompt_text sam_model sam_quant box_threshold text_threshold =>
      d ← generate_mask_route image mask_model cloth_category
            sam_prompt_text sam_model sam_quant box_threshold text_threshold;
      mret (RDict d)
  | Stop => s ← stop; mret (RStop s)
  end.

(** *** Reading the call log *)

(** The [(req, accept)] pairs given to [call_worker]. *)
Definition worker_calls (t : list call) : list (request * option string) :=
  flat_map (fun c =>
    match c with
    | Call c' _ =>
        match c' with
        | call_worker req accept => [(req, accept)]
        | _ => []
        end
    end) t.

(** The [(interrogator, img)] pairs of the interrogator calls. *)
Definition interrogator_calls (t : list call)
  : list (interrogator_fn * ndarray) :=
  flat_map (fun c =>
    match c with
    | Call c' _ =>
        match c' with
        | interrogate f img => [(f, img)]
        | _ => []
        end
    end) t.

(** The argument triples given to [generate_mask_from_image]. *)
Definition mask_calls (t : list call)
  : list (list byte * string * gmap string pyval) :=
  flat_map (fun c =>
    match c with
    | Call c' _ =>
        match c' with
        | generate_mask_from_image image_data mask_model extras =>
            [(image_data, mask_model, extras)]
        | _ => []
        end
    end) t.

(** How many times [process_stop] was called. *)
Definition process_stop_calls (t : list call) : nat :=
  length (flat_map (fun c =>
    match c with
    | Call c' _ =>
        match c' with
        | process_stop => [()]
        | _ => []
        end
    end) t).

End Invocations.

(** ** The router *)

(** Model of the framework objects the module builds at import time.
    [APIRouter(dependencies=ds)] is an empty route table that remembers
    [ds]; the decorator [router.post(path=..., tags=...)] appends one route
    for method POST that carries the router's dependencies (the decorators
    of this module pass no [dependencies=] of their own). *)
Inductive method := GET | POST | PUT | DELETE | PATCH | HEAD | OPTIONS.

#[global] Instance method_eq_dec : EqDecision method.
Proof. solve_decision. Defined.

(** The callables wrapped in [Depends(...)] in this module: line 32 and
    the signatures on lines 74, 102 and 128. *)
Inductive callable :=
| api_key_auth
| ImgUpscaleOrVaryRequest_as_form
| ImgInpaintOrOutpaintRequest_as_form
| ImgPromptRequest_as_form.

#[global] Instance callable_eq_dec : EqDecision callable.
Proof. solve_decision. Defined.

Inductive dependency := Depends (f : callable).

#[global] Instance dependency_eq_dec : EqDecision dependency.
Proof. solve_decision. Defined.

(** The names of the decorated functions. *)
Inductive endpoint_fn :=
| text2img_generation_fn
| img_upscale_or_vary_fn
| img_inpaint_or_outpaint_fn
| img_prompt_fn
| describe_image_fn
| generate_mask_route_fn
| stop_fn.

#[global] Instance endpoint_fn_eq_dec : EqDecision endpoint_fn.
Proof. solve_decision. Defined.

Record route := {
  path : string;
  methods : list method;
  route_endpoint : endpoint_fn;
  dependencies : list dependency;
  tags : list string
}.

Record APIRouter := {
  router_dependencies : list dependency;
  routes : list route
}.

Definition new_APIRouter (dependencies : list dependency) : APIRouter :=
  {| router_dependencies := dependencies; routes := [] |}.

Definition post (path : string) (tags : list string) (fn : endpoint_fn)
    (r : APIRouter) : APIRouter :=
  {| router_dependencies := router_dependencies r;
     routes := routes r ++
       [ {| path := path; methods := [POST]; route_endpoint := fn;
            dependencies := router_dependencies r; tags := tags |} ] |}.

(** Lines 31-33 and the seven decorators, in file order. *)
Definition secure_router : APIRouter :=
  let r := new_APIRouter [Depends api_key_auth] in
  let r := post "/v1/generation/text-to-image" ["GenerateV1"]
             text2img_generation_fn r in
  let r := post "/v1/generation/image-upscale-vary" ["GenerateV1"]
             img_upscale_or_vary_fn r in
  let r := post "/v1/generation/image-inpaint-outpaint" ["GenerateV1"]
             img_inpaint_or_outpaint_fn r in
  let r := post "/v1/generation/image-prompt" ["GenerateV1"]
             img_prompt_fn r in
  let r := post "/v1/tools/describe-image" ["GenerateV1"]
             describe_image_fn r in
  let r := post "/v1/tools/generate-mask" ["GenerateV1"]
             generate_mask_route_fn r in
  post "/v1/generation/stop" ["Default"] stop_fn r.

(** The [Depends(...)] defaults in an endpoint function's signature. *)
Definition parameter_dependencies (fn : endpoint_fn) : list dependency :=
  match fn with
  | img_upscale_or_vary_fn => [Depends ImgUpscaleOrVaryRequest_as_form]
  | img_inpaint_or_outpaint_fn => [Depends ImgInpaintOrOutpaintRequest_as_form]
  | img_prompt_fn => [Depends ImgPromptRequest_as_form]
  | _ => []
  end.

(** The first route whose path and methods match. *)
Definition match_route (r : APIRouter) (m : method) (p : string)
  : option route :=
  List.find (fun rt => bool_decide (path rt = p ∧ m ∈ methods rt)) (routes r).

(** The framework calls an endpoint function only after every dependency
    of the matched route has been solved; [passes f] tells whether the
    callable [f] returns for the request at hand (rather than raising).
    The result is the endpoint function that gets called, if any. *)
Definition dispatch (passes : callable -> bool) (r : APIRouter)
    (m : method) (p : string) : option endpoint_fn :=
  match match_route r m p with
  | None => None
  | Some rt =>
      if forallb (fun d => match d with Depends f => passes f end)
           (dependencies rt ++ parameter_dependencies (route_endpoint rt))
      then Some (route_endpoint rt)
      else None
  end.

(** ** Properties of call trees and call logs *)

Section Logs.
Context `{Collaborators}.

(** A tree in which no [raise] of the module's own occurs. *)
Inductive raise_free {A} : Prog A -> Prop :=
| raise_free_Ret (a : A) : raise_free (Ret a)
| raise_free_Vis {X} (c : ext X) (k : X -> Prog A) :
    (forall x, raise_free (k x)) -> raise_free (Vis c k).

(** Two call logs agree when they make the same calls with the same
    arguments for as long as the collaborators gave the same answers. *)
Inductive agree : list call -> list call -> Prop :=
| agree_nil : agree [] []
| agree_cons {X} (c : ext X) (out1 out2 : Exception + X) (t1 t2 : list call) :
    (out1 = out2 -> agree t1 t2) ->
    agree (Call c out1 :: t1) (Call c out2 :: t2).

End Logs.

(** The plain rule for the accept value: the query parameter whenever
    it is supplied, else the header. *)
Definition accept_when_supplied (header query : option string)
  : option string :=
  match query with
  | Some q => Some q
  | None => header
  end.

(** The rule with the empty string set apart: the query parameter
    when it is supplied and not empty, else the header. *)
Definition accept_when_nonempty (header query : option string)
  : option string :=
  match query with
  | Some q => if decide (q = "") then header else Some q
  | None => header
  end.

(** ** A concrete environment *)

(** Requests are prompts, the worker's response is a string, a decoded
    image is a number, a mask is a string, exceptions are messages. *)
Definition sample : Collaborators := {|
  Text2ImgRequest := string;
  ImgUpscaleOrVaryRequest := string;
  ImgInpaintOrOutpaintRequest := string;
  ImgPromptRequest := string;
  WorkerResponse := string;
  ndarray := nat;
  Mask := string;
  Exception := string;
  TypeError := "TypeError: object of type 'NoneType' has no len()"
|}.

Definition sample_answer {X} (c : @ext sample X) : X :=
  match c in ext X return X with
  | call_worker _ accept => default "application/json" accept
  | import_interrogator _ => ()
  | process_stop => ()
  | read_input_image image => file image
  | HWC3 x => x
  | interrogate default_interrogator_photo _ => "a photo of a cat"
  | interrogate default_interrogator_anime _ => "1girl, solo"
  | UploadFile_read _ => [x89; x50; x4e; x47]%byte
  | generate_mask_from_image _ mask_model _ => "mask by " ++ mask_model
  end.

(** The state is the number of calls the collaborators still answer;
    after that every call raises. *)
Definition sample_oracle (X : Type) (c : @ext sample X) (w : nat)
  : (@Exception sample + X) * nat :=
  match w with
  | O => (inl "unavailable", O)
  | S n => (inr (sample_answer c), n)
  end.


Definition cat_png : UploadFile := {| filename := Some "cat.png"; file := 7 |}.

(** Two text-to-image requests with an Accept header: [?accept=] and
    [?accept=image/png]. *)
Definition text2img_empty_query : @generation_request sample :=
  @to_text2img_generation sample "a cat" (Some "application/json") (Some "").

Definition text2img_png_query : @generation_request sample :=
  @to_text2img_generation sample "a cat" (Some "application/json") (Some "image/png").

(** * Verification *)

(** ** Running call trees *)

Section RunFacts.
Context `{Collaborators} {World : Type}.
Variable oracle : forall X, ext X -> World -> (Exception + X) * World.

(** A single call returns whatever the collaborator returned or raised. *)
Lemma run_trigger {X} (c : ext X) (w : World) :
  run oracle (trigger c) w =
  (let '(out, w1) := oracle X c w in (out, w1, [Call c out])).
Proof.
  unfold trigger. simpl.
  destruct (oracle X c w) as [[e | x] w1]; reflexivity.
Qed.



Lemma raise_free_bind {A B} (p : Prog A) (f : A -> Prog B) :
  raise_free p -> (forall a, raise_free (f a)) -> raise_free (p ≫= f).
Proof.
  intros Hp Hf. induction Hp as [a | X c k _ IH].
  - apply Hf.
  - change (raise_free (Vis c (fun x => k x ≫= f))).
    apply raise_free_Vis. exact IH.
Qed.

Lemma raise_free_trigger {X} (c : ext X) : raise_free (trigger c).
Proof. apply raise_free_Vis. intros x. apply raise_free_Ret. Qed.

End RunFacts.

(** ** The accept value *)

(** The condition written four times in the module, lines 61, 89, 115
    and 144, never raises: its left operand keeps [None] away from
    [len].  It holds exactly when the query parameter is a non-empty
    string. *)
Lemma accept_guard `{Collaborators} (accept_query : option string) :
  (if is_not_None accept_query
   then n ← len accept_query; mret (0 <? n)%nat
   else mret false)
  = Ret (bool_decide (accept_query <> None /\ accept_query <> Some "")).
Proof.
  destruct accept_query as [[| a q] |]; reflexivity.
Qed.

Section Generation.
Context `{Collaborators} {World : Type}.
Variable oracle : forall X, ext X -> World -> (Exception + X) * World.

(** Each generation endpoint is one call of [call_worker]. *)
Lemma handle_generation_call (g : generation_request) :
  handle_generation g =
  trigger (call_worker (parsed_request g)
             (accept_when_nonempty (header_accept g) (query_accept g))).
Proof.
  destruct g; simpl;
    unfold text2img_generation, img_upscale_or_vary,
      img_inpaint_or_outpaint, img_prompt;
    rewrite accept_guard;
    destruct accept_query as [[| a q] |]; reflexivity.
Qed.

Lemma run_handle_generation (g : generation_request) (w : World) :
  let c := call_worker (parsed_request g)
             (accept_when_nonempty (header_accept g) (query_accept g)) in
  run oracle (handle_generation g) w =
  (let '(out, w1) := oracle _ c w in (out, w1, [Call c out])).
Proof. intros c. rewrite handle_generation_call. apply run_trigger. Qed.

Lemma worker_calls_generation (g : generation_request) (w : World) :
  worker_calls (run oracle (handle_generation g) w).2 =
  [(parsed_request g,
    accept_when_nonempty (header_accept g) (query_accept g))].
Proof.
  rewrite run_handle_generation.
  destruct (oracle _ _ w) as [out w1]. reflexivity.
Qed.

(** C1. On each of the four generation endpoints the handler makes one
    call out of the module, [call_worker], whose first argument is the
    parsed request object as it was received, and the handler ends the
    way that call ends: it returns the value [call_worker] returned (or
    lets its exception through), in the state [call_worker] left. *)
Theorem generation_forwards_request (g : generation_request) (w : World) :
  exists accept : option string,
    run oracle (handle_generation g) w =
    (let '(out, w1) := oracle _ (call_worker (parsed_request g) accept) w in
     (out, w1, [Call (call_worker (parsed_request g) accept) out])).
Proof.
  exists (accept_when_nonempty (header_accept g) (query_accept g)).
  apply run_handle_generation.
Qed.

(** C2, amended. On each of the four generation endpoints the accept
    value given to [call_worker] comes from exactly two sources: it is
    the 'accept' query parameter when that parameter is supplied and is
    not the empty string, and the Accept header value otherwise. *)
Theorem accept_from_query_or_header (g : generation_request) (w : World) :
  worker_calls (run oracle (handle_generation g) w).2 =
    [(parsed_request g,
      accept_when_nonempty (header_accept g) (query_accept g))]
  /\ (accept_when_nonempty (header_accept g) (query_accept g) = query_accept g
      \/ accept_when_nonempty (header_accept g) (query_accept g)
         = header_accept g).
Proof.
  split; [apply worker_calls_generation |].
  unfold accept_when_nonempty.
  destruct (query_accept g) as [q |]; [| by right].
  case_decide; [by right | by left].
Qed.

(** C9. On each generation endpoint the 'accept' query parameter
    replaces the Accept header only when it is not [None] and its length
    is greater than zero; when it is the empty string (or absent) the
    Accept header value, possibly [None], reaches [call_worker] as it
    is. *)
Theorem accept_query_overrides_only_when_nonempty
    (g : generation_request) (w : World) :
  let sent := worker_calls (run oracle (handle_generation g) w).2 in
  (forall q, query_accept g = Some q -> (0 < String.length q)%nat ->
     sent = [(parsed_request g, Some q)])
  /\ (query_accept g = Some "" -> sent = [(parsed_request g, header_accept g)])
  /\ (query_accept g = None -> sent = [(parsed_request g, header_accept g)])
  /\ (sent <> [(parsed_request g, header_accept g)] ->
      exists q, query_accept g = Some q /\ (0 < String.length q)%nat).
Proof.
  intros sent. subst sent. rewrite worker_calls_generation.
  unfold accept_when_nonempty.
  destruct (query_accept g) as [q |].
  - case_decide as Hq.
    + subst q. split; [| split; [| split]]; try done.
      intros q Hq Hlen. injection Hq as <-. simpl in Hlen. lia.
    + split; [| split; [| split]]; try done.
      * intros q' Hq' _. injection Hq' as <-. reflexivity.
      * intros Hq'. injection Hq' as ->. done.
      * intros _. exists q. split; [done |].
        destruct q; [done | simpl; lia].
  - split; [| split; [| split]]; done.
Qed.

End Generation.

(** ** The tools endpoints and stop *)

Section Tools.
Context `{Collaborators} {World : Type}.
Variable oracle : forall X, ext X -> World -> (Exception + X) * World.

(** Case analysis on the answer to the next call of a running tree. *)
Ltac next_call :=
  match goal with
  | |- context [oracle ?X ?c ?w] =>
      let E := fresh "Hcall" in
      destruct (oracle X c w) as [[?e | ?x] ?w] eqn:E; simpl
  end.

Lemma interrogator_unique (f f' : interrogator_fn) (P : Prop) :
  (f = default_interrogator_photo <-> P) ->
  (f' = default_interrogator_photo <-> P) -> f = f'.
Proof.
  intros Hf Hf'. destruct f, f'; try reflexivity; exfalso.
  - assert (default_interrogator_anime = default_interrogator_photo)
      by (apply Hf', Hf; reflexivity). discriminate.
  - assert (default_interrogator_anime = default_interrogator_photo)
      by (apply Hf, Hf'; reflexivity). discriminate.
Qed.

(** The interrogator of an image type: the one whose module the handler
    imports, and the one it calls. *)
Lemma interrogator_for (image_type : DescribeImageType) (f : interrogator_fn) :
  (f = default_interrogator_photo <-> image_type = photo) ->
  f = if decide (image_type = photo)
      then default_interrogator_photo else default_interrogator_anime.
Proof.
  intros Hf. apply (interrogator_unique _ _ _ Hf).
  destruct image_type; simpl; split; congruence.
Qed.

(** C4. [describe_image] hands the image to one interrogator only: the
    photo interrogator when [image_type] is [DescribeImageType.photo]
    and in no other case, the anime tagger for every other
    [image_type].  Once that interrogator has been imported and the
    image is read, it is called exactly once, on
    [HWC3(read_input_image(image))], and the response is the
    [DescribeImageResponse] whose [describe] field is what the
    interrogator returned. *)
Theorem describe_image_dispatch
    (image : UploadFile) (image_type : DescribeImageType) (w : World) :
  let t := (run oracle (describe_image image image_type) w).2 in
  (forall f img, (f, img) ∈ interrogator_calls t ->
     (f = default_interrogator_photo <-> image_type = photo))
  /\ (forall f x img w0 w1 w2,
        (f = default_interrogator_photo <-> image_type = photo) ->
        oracle _ (import_interrogator f) w = (inr tt, w0) ->
        oracle _ (read_input_image image) w0 = (inr x, w1) ->
        oracle _ (HWC3 x) w1 = (inr img, w2) ->
        interrogator_calls t = [(f, img)])
  /\ (forall f x img result w0 w1 w2 w3,
        (f = default_interrogator_photo <-> image_type = photo) ->
        oracle _ (import_interrogator f) w = (inr tt, w0) ->
        oracle _ (read_input_image image) w0 = (inr x, w1) ->
        oracle _ (HWC3 x) w1 = (inr img, w2) ->
        oracle _ (interrogate f img) w2 = (inr result, w3) ->
        run oracle (describe_image image image_type) w =
          (inr {| describe := result |}, w3,
           [Call (import_interrogator f) (inr tt);
            Call (read_input_image image) (inr x);
            Call (HWC3 x) (inr img);
            Call (interrogate f img) (inr result)])).
Proof.
  unfold describe_image. split; [| split].
  - intros f img.
    destruct image_type; simpl; repeat next_call;
      rewrite ?elem_of_nil, ?list_elem_of_singleton; try done.
    all: intros [= -> ->]; split; congruence.
  - intros f x img w0 w1 w2 Hf%interrogator_for. subst f.
    destruct image_type; simpl;
      intros -> ; simpl; intros -> ; simpl; intros -> ; simpl;
      next_call; reflexivity.
  - intros f x img result w0 w1 w2 w3 Hf%interrogator_for. subst f.
    destruct image_type; simpl;
      intros -> ; simpl; intros -> ; simpl; intros -> ; simpl;
      intros -> ; reflexivity.
Qed.

(** C6. [stop] calls [process_stop] exactly once, through
    [stop_worker] (whose call log is the call log of [stop]), and
    nothing else; when that call has returned it returns the
    [StopResponse] whose [msg] is "success" (an exception of
    [process_stop] is not caught). *)
Theorem stop_invokes_process_stop_once (w : World) :
  process_stop_calls (run oracle stop w).2 = 1
  /\ (run oracle stop w).2 = (run oracle stop_worker w).2
  /\ run oracle stop w =
     (let '(out, w1) := oracle _ process_stop w in
      (match out with
       | inl e => inl e
       | inr _ => inr {| msg := "success" |}
       end, w1, [Call process_stop out])).
Proof.
  unfold stop, stop_worker. simpl.
  next_call; repeat split; reflexivity.
Qed.

(** C5. The [extras] dictionary [generate_mask_route] gives to
    [generate_mask_from_image] has exactly the key 'cloth_category' when
    [mask_model] is 'u2net_cloth_seg', exactly the five keys
    'sam_prompt_text', 'sam_model', 'sam_quant', 'box_threshold' and
    'text_threshold' when it is 'sam', and is empty for every other
    [mask_model]; the call is made once the upload has been read, with
    the bytes read and [mask_model] itself; and the dictionary returned
    has exactly the keys 'filename' and 'mask'. *)
Theorem generate_mask_extras
    (image : UploadFile) (mask_model cloth_category : string)
    (sam_prompt_text sam_model sam_quant : string)
    (box_threshold text_threshold : float) (w : World) :
  let p := generate_mask_route image mask_model cloth_category
             sam_prompt_text sam_model sam_quant
             box_threshold text_threshold in
  exists extras : gmap string pyval,
    (mask_model = "u2net_cloth_seg" ->
       dom extras = ({["cloth_category"]} : gset string))
    /\ (mask_model = "sam" ->
        dom extras = ({["sam_prompt_text"; "sam_model"; "sam_quant";
                        "box_threshold"; "text_threshold"]} : gset string))
    /\ (mask_model <> "u2net_cloth_seg" -> mask_model <> "sam" ->
        extras = ∅)
    /\ (forall call, call ∈ mask_calls (run oracle p w).2 ->
        call.1.2 = mask_model /\ call.2 = extras)
    /\ (forall image_data w1,
        oracle _ (UploadFile_read image) w = (inr image_data, w1) ->
        mask_calls (run oracle p w).2 = [(image_data, mask_model, extras)])
    /\ (forall image_data w1 mask w2,
        oracle _ (UploadFile_read image) w = (inr image_data, w1) ->
        oracle _ (generate_mask_from_image image_data mask_model extras) w1
          = (inr mask, w2) ->
        exists d, (run oracle p w).1.1 = inr d)
    /\ (forall d, (run oracle p w).1.1 = inr d ->
        dom d = ({["filename"; "mask"]} : gset string)).
Proof.
  intros p. subst p. unfold generate_mask_route. cbv zeta.
  match goal with
  | |- context [generate_mask_from_image _ _ ?ex] => set (extras := ex)
  end.
  exists extras. simpl.
  split; [| split; [| split; [| split; [| split; [| split]]]]].
  - intros ->. subst extras. simpl.
    rewrite dom_insert_L, dom_empty_L. set_solver.
  - intros ->. subst extras. simpl.
    rewrite !dom_insert_L, dom_empty_L. set_solver.
  - intros H1 H2. subst extras. by rewrite !decide_False.
  - intros call. repeat next_call;
      rewrite ?elem_of_nil, ?list_elem_of_singleton; try done.
    all: intros ->; done.
  - intros image_data w1 ->. simpl. next_call; reflexivity.
  - intros image_data w1 mask w2 ->. simpl. intros ->. simpl. eauto.
  - intros d. repeat next_call; try done.
    intros [= <-]. rewrite !dom_insert_L, dom_empty_L. set_solver.
Qed.

End Tools.

(** ** The route table *)

Lemma routes_secure_router :
  routes secure_router =
  map (fun '(p, fn, tg) =>
         {| path := p; methods := [POST]; route_endpoint := fn;
            dependencies := [Depends api_key_auth]; tags := [tg] |})
    [ ("/v1/generation/text-to-image", text2img_generation_fn, "GenerateV1");
      ("/v1/generation/image-upscale-vary", img_upscale_or_vary_fn,
       "GenerateV1");
      ("/v1/generation/image-inpaint-outpaint", img_inpaint_or_outpaint_fn,
       "GenerateV1");
      ("/v1/generation/image-prompt", img_prompt_fn, "GenerateV1");
      ("/v1/tools/describe-image", describe_image_fn, "GenerateV1");
      ("/v1/tools/generate-mask", generate_mask_route_fn, "GenerateV1");
      ("/v1/generation/stop", stop_fn, "Default") ].
Proof. reflexivity. Qed.

Lemma post_keeps_dependencies p tg fn r :
  router_dependencies (post p tg fn r) = router_dependencies r.
Proof. reflexivity. Qed.

(** A route added by [post] carries the router's dependencies, and the
    routes already there are kept. *)
Lemma post_routes_guarded (d : dependency) p tg fn r :
  d ∈ router_dependencies r ->
  Forall (fun rt => d ∈ dependencies rt) (routes r) ->
  Forall (fun rt => d ∈ dependencies rt) (routes (post p tg fn r)).
Proof.
  intros Hd Hr. unfold post. simpl.
  apply Forall_app. split; [exact Hr |].
  apply Forall_cons. split; [exact Hd | apply Forall_nil_2].
Qed.

Lemma match_route_elem (r : APIRouter) (m : method) (p : string) rt :
  match_route r m p = Some rt ->
  rt ∈ routes r /\ path rt = p /\ m ∈ methods rt.
Proof.
  unfold match_route. intros Hfind.
  apply find_some in Hfind as [Hin Hdec].
  apply bool_decide_eq_true in Hdec.
  split; [by apply list_elem_of_In | exact Hdec].
Qed.

(** C3. All seven routes of the module are registered on
    [secure_router], whose dependency list contains
    [Depends(api_key_auth)]; each route carries that dependency, so the
    framework calls none of the endpoint functions unless [api_key_auth]
    has passed. *)
Theorem routes_require_api_key :
  Depends api_key_auth ∈ router_dependencies secure_router
  /\ length (routes secure_router) = 7
  /\ Forall (fun rt => Depends api_key_auth ∈ dependencies rt)
       (routes secure_router)
  /\ (forall passes m p fn,
        dispatch passes secure_router m p = Some fn ->
        passes api_key_auth = true).
Proof.
  assert (Hrouter : Depends api_key_auth ∈ router_dependencies secure_router)
    by (simpl; set_solver).
  assert (Hall : Forall (fun rt => Depends api_key_auth ∈ dependencies rt)
                   (routes secure_router)).
  { unfold secure_router. cbv zeta.
    repeat (apply post_routes_guarded;
            [rewrite ?post_keeps_dependencies; simpl; set_solver |]).
    apply Forall_nil_2. }
  split; [exact Hrouter |]. split; [reflexivity |]. split; [exact Hall |].
  intros passes m p fn. unfold dispatch.
  destruct (match_route secure_router m p) as [rt |] eqn:Hrt; [| done].
  apply match_route_elem in Hrt as (Hin & _ & _).
  destruct (forallb _ _) eqn:Hdeps; [| done]. intros _.
  rewrite forallb_app in Hdeps. apply andb_true_iff in Hdeps as [Hdeps _].
  rewrite forallb_forall in Hdeps.
  rewrite Forall_forall in Hall. specialize (Hall rt Hin).
  apply (Hdeps (Depends api_key_auth)). by apply list_elem_of_In.
Qed.

(** C7. The module exposes exactly seven routes, all for method POST,
    with the paths /v1/generation/text-to-image,
    /v1/generation/image-upscale-vary,
    /v1/generation/image-inpaint-outpaint, /v1/generation/image-prompt,
    /v1/tools/describe-image, /v1/tools/generate-mask and
    /v1/generation/stop, bound to the seven endpoint functions; no other
    method or path matches a route. *)
Theorem seven_post_routes :
  map (fun rt => (methods rt, path rt, route_endpoint rt))
      (routes secure_router) =
    [ ([POST], "/v1/generation/text-to-image", text2img_generation_fn);
      ([POST], "/v1/generation/image-upscale-vary", img_upscale_or_vary_fn);
      ([POST], "/v1/generation/image-inpaint-outpaint",
       img_inpaint_or_outpaint_fn);
      ([POST], "/v1/generation/image-prompt", img_prompt_fn);
      ([POST], "/v1/tools/describe-image", describe_image_fn);
      ([POST], "/v1/tools/generate-mask", generate_mask_route_fn);
      ([POST], "/v1/generation/stop", stop_fn) ]
  /\ forall m p,
       is_Some (match_route secure_router m p) <->
       m = POST /\
       p ∈ [ "/v1/generation/text-to-image";
             "/v1/generation/image-upscale-vary";
             "/v1/generation/image-inpaint-outpaint";
             "/v1/generation/image-prompt";
             "/v1/tools/describe-image";
             "/v1/tools/generate-mask";
             "/v1/generation/stop" ].
Proof.
  split; [reflexivity |].
  intros m p. split.
  - intros [rt Hrt]. apply match_route_elem in Hrt as (Hin & Hp & Hm).
    revert Hp Hm. rewrite routes_secure_router in Hin. simpl in Hin.
    repeat (apply elem_of_cons in Hin as [-> | Hin]);
      try (by apply elem_of_nil in Hin);
      simpl; intros <- Hm%list_elem_of_singleton;
      (split; [exact Hm | repeat constructor]).
  - intros [-> Hp].
    repeat (apply elem_of_cons in Hp as [-> | Hp]);
      try (by apply elem_of_nil in Hp);
      vm_compute; eauto.
Qed.

(** ** Errors and determinism of the marshaling *)

Section Marshaling.
Context `{Collaborators}.

(** [len] is the one operation of the module that can raise by itself:
    on [None] it ends with [TypeError] and no call is made. *)
Lemma len_None_raises {World : Type}
    (oracle : forall X, ext X -> World -> (Exception + X) * World) (w : World) :
  run oracle (len None) w = (inl TypeError, w, []).
Proof. reflexivity. Qed.



(** Two runs of one call tree, in any two environments, agree. *)
Lemma run_agree {A W1 W2} (p : Prog A)
    (o1 : forall X, ext X -> W1 -> (Exception + X) * W1)
    (o2 : forall X, ext X -> W2 -> (Exception + X) * W2) :
  forall w1 w2, agree (run o1 p w1).2 (run o2 p w2).2.
Proof.
  induction p as [a | e | X c k IH]; intros w1 w2; simpl;
    try apply agree_nil.
  destruct (o1 X c w1) as [[e1 | x1] w1'], (o2 X c w2) as [[e2 | x2] w2'].
  - apply agree_cons. intros _. apply agree_nil.
  - destruct (run o2 (k x2) w2') as [[r2 w2''] t2].
    simpl. apply agree_cons. discriminate.
  - destruct (run o1 (k x1) w1') as [[r1 w1''] t1].
    simpl. apply agree_cons. discriminate.
  - destruct (run o1 (k x1) w1') as [[r1 w1''] t1] eqn:E1.
    destruct (run o2 (k x2) w2') as [[r2 w2''] t2] eqn:E2.
    simpl. apply agree_cons. intros [= ->].
    specialize (IH x2 w1' w2'). rewrite E1, E2 in IH. exact IH.
Qed.

(** C10. The marshaling of every endpoint function is a function of
    its parsed inputs.  Two invocations with equal inputs, in whatever
    two environments, make the same calls with the same arguments for
    as long as the collaborators answer alike; and the arguments of
    [call_worker], of the interrogator and of
    [generate_mask_from_image] are fixed by the inputs (and by the image
    or bytes read from the upload) before any environment is chosen; the
    interrogator is called once its import and the image reading have
    returned. *)
Theorem marshaling_deterministic :
  (forall (inv : invocation) W1 W2
          (o1 : forall X, ext X -> W1 -> (Exception + X) * W1)
          (o2 : forall X, ext X -> W2 -> (Exception + X) * W2) w1 w2,
     agree (run o1 (endpoint inv) w1).2 (run o2 (endpoint inv) w2).2)
  /\ (forall g : generation_request, exists args,
        forall World (oracle : forall X, ext X -> World -> (Exception + X) * World) w,
          worker_calls (run oracle (handle_generation g) w).2 = [args])
  /\ (forall image image_type, exists f,
        forall World (oracle : forall X, ext X -> World -> (Exception + X) * World)
               w x img w0 w1 w2,
          oracle _ (import_interrogator f) w = (inr tt, w0) ->
          oracle _ (read_input_image image) w0 = (inr x, w1) ->
          oracle _ (HWC3 x) w1 = (inr img, w2) ->
          interrogator_calls (run oracle (describe_image image image_type) w).2
          = [(f, img)])
  /\ (forall image mask_model cloth_category sam_prompt_text sam_model
             sam_quant box_threshold text_threshold, exists extras,
        forall World (oracle : forall X, ext X -> World -> (Exception + X) * World)
               w image_data w1,
          oracle _ (UploadFile_read image) w = (inr image_data, w1) ->
          mask_calls
            (run oracle
               (generate_mask_route image mask_model cloth_category
                  sam_prompt_text sam_model sam_quant
                  box_threshold text_threshold) w).2
          = [(image_data, mask_model, extras)]).
Proof.
  split; [| split; [| split]].
  - intros inv W1 W2 o1 o2 w1 w2. apply run_agree.
  - intros g. eexists. intros World oracle w.
    apply worker_calls_generation.
  - intros image image_type.
    exists (if decide (image_type = photo)
            then default_interrogator_photo else default_interrogator_anime).
    intros World oracle w x img w0 w1 w2 Himport Hread Hhwc.
    unfold describe_image. destruct image_type; simpl in *;
      rewrite Himport; simpl; rewrite Hread; simpl; rewrite Hhwc; simpl;
      destruct (oracle _ _ w2) as [[e | result] w3]; reflexivity.
  - intros image mask_model cloth_category sam_prompt_text sam_model
      sam_quant box_threshold text_threshold. eexists.
    intros World oracle w image_data w1 Hread.
    unfold generate_mask_route. cbv zeta. simpl.
    rewrite Hread. simpl.
    destruct (oracle _ _ w1) as [[e | mask] w2]; reflexivity.
Qed.

End Marshaling.

(** ** Concrete runs *)

Section Concrete.
#[local] Existing Instance sample.

(** C2 does not hold for a supplied parameter as such.  With the query
    parameter supplied as the empty string ([?accept=]) and the header
    [Accept: application/json], [call_worker] receives
    'application/json', not the value of the parameter. *)
Lemma accept_empty_query_counterexample :
  query_accept text2img_empty_query = Some ""
  /\ worker_calls
       (run sample_oracle (handle_generation text2img_empty_query) 1).2
     = [(Text2Img "a cat", Some "application/json")]
  /\ worker_calls
       (run sample_oracle (handle_generation text2img_empty_query) 1).2
     <> [(parsed_request text2img_empty_query,
          accept_when_supplied (header_accept text2img_empty_query)
            (query_accept text2img_empty_query))].
Proof.
  split; [reflexivity |]. split; [reflexivity |].
  simpl. discriminate.
Qed.

Lemma accept_query_overrides_only_when_nonempty_witness :
  worker_calls (run sample_oracle (handle_generation text2img_png_query) 1).2
  = [(Text2Img "a cat", Some "image/png")].
Proof.
  apply (proj1 (accept_query_overrides_only_when_nonempty
                  sample_oracle text2img_png_query 1) "image/png").
  - reflexivity.
  - simpl. lia.
Defined.

Lemma describe_image_dispatch_witness :
  run sample_oracle (describe_image cat_png photo) 4 =
  (inr {| describe := "a photo of a cat" |}, 0,
   [Call (import_interrogator default_interrogator_photo) (inr tt);
    Call (read_input_image cat_png) (inr 7);
    Call (HWC3 7) (inr 7);
    Call (interrogate default_interrogator_photo 7)
      (inr "a photo of a cat")]).
Proof.
  apply (proj2 (proj2 (describe_image_dispatch sample_oracle cat_png photo 4))
           default_interrogator_photo 7 7 "a photo of a cat" 3 2 1 0).
  - split; reflexivity.
  - reflexivity.
  - reflexivity.
  - reflexivity.
  - reflexivity.
Defined.

Lemma generate_mask_extras_witness :
  exists extras : gmap string pyval,
    dom extras = ({["sam_prompt_text"; "sam_model"; "sam_quant";
                    "box_threshold"; "text_threshold"]} : gset string)
    /\ mask_calls
         (run sample_oracle
            (generate_mask_route cat_png "sam" "upper" "the cat"
               "sam_vit_b_01ec64" "None" 0.5%float 0.25%float) 2).2
       = [([x89; x50; x4e; x47]%byte, "sam", extras)].
Proof.
  destruct (generate_mask_extras sample_oracle cat_png "sam" "upper" "the cat"
              "sam_vit_b_01ec64" "None" 0.5%float 0.25%float 2)
    as (extras & _ & Hsam & _ & _ & Hcall & _).
  exists extras. split.
  - apply Hsam. reflexivity.
  - apply (Hcall _ 1). reflexivity.
Defined.

Lemma routes_require_api_key_witness :
  let passes := fun f => bool_decide (f = api_key_auth) in
  dispatch passes secure_router POST "/v1/generation/stop" = Some stop_fn
  /\ passes api_key_auth = true.
Proof.
  intros passes. split; [reflexivity |].
  apply (proj2 (proj2 (proj2 routes_require_api_key))
           passes POST "/v1/generation/stop" stop_fn).
  reflexivity.
Defined.

Lemma seven_post_routes_witness :
  is_Some (match_route secure_router POST "/v1/tools/generate-mask").
Proof.
  apply (proj2 (proj2 seven_post_routes POST "/v1/tools/generate-mask")).
  split; [reflexivity | repeat constructor].
Defined.


Lemma marshaling_deterministic_witness :
  exists f,
    interrogator_calls (run sample_oracle (describe_image cat_png anime) 4).2
    = [(f, 7)].
Proof.
  destruct (proj1 (proj2 (proj2 marshaling_deterministic)) cat_png anime)
    as [f Hf].
  exists f. apply (Hf nat sample_oracle 4 7 7 3 2 1); reflexivity.
Defined.

End Concrete.

(** * Further properties of the endpoint functions *)

(** ** [generate_mask_route] *)

Section MaskRoute.
Context `{Collaborators} {World : Type}.
Variable oracle : forall X, ext X -> World -> (Exception + X) * World.

Ltac answer_call :=
  match goal with
  | |- context [oracle ?X ?c ?w] =>
      let E := fresh "Hans" in
      destruct (oracle X c w) as [[?e | ?x] ?w] eqn:E; simpl
  end.

(** X1. The values in [extras] are the parameters of the same name.
    For 'u2net_cloth_seg' the dictionary is the single item
    cloth_category, whatever the SAM parameters are; for 'sam' each of
    the five keys holds its own parameter and cloth_category is not
    there. *)
Theorem generate_mask_extras_values
    (image : UploadFile) (mask_model cloth_category : string)
    (sam_prompt_text sam_model sam_quant : string)
    (box_threshold text_threshold : float)
    (w w1 : World) (image_data : list byte) :
  oracle _ (UploadFile_read image) w = (inr image_data, w1) ->
  let t := (run oracle
              (generate_mask_route image mask_model cloth_category
                 sam_prompt_text sam_model sam_quant
                 box_threshold text_threshold) w).2 in
  (mask_model = "u2net_cloth_seg" ->
     mask_calls t =
     [(image_data, mask_model, {["cloth_category" := PStr cloth_category]})])
  /\ (mask_model = "sam" ->
      exists extras : gmap string pyval,
        mask_calls t = [(image_data, mask_model, extras)]
        /\ extras !! "sam_prompt_text" = Some (PStr sam_prompt_text)
        /\ extras !! "sam_model" = Some (PStr sam_model)
        /\ extras !! "sam_quant" = Some (PStr sam_quant)
        /\ extras !! "box_threshold" = Some (PFloat box_threshold)
        /\ extras !! "text_threshold" = Some (PFloat text_threshold)
        /\ extras !! "cloth_category" = None).
Proof.
  intros Hread t. subst t.
  unfold generate_mask_route. cbv zeta. simpl. rewrite Hread. simpl.
  split.
  - intros ->. simpl. rewrite insert_empty. answer_call; reflexivity.
  - intros ->. simpl. eexists. split; [answer_call; reflexivity |].
    repeat split; by simplify_map_eq.
Qed.

(** X2. A dictionary returned by [generate_mask_route] was built after
    both calls returned: 'mask' holds the value
    [generate_mask_from_image] returned and 'filename' the upload's file
    name, or [None] when the upload has none (the key is there all the
    same). *)
Theorem generate_mask_response_values
    (image : UploadFile) (mask_model cloth_category : string)
    (sam_prompt_text sam_model sam_quant : string)
    (box_threshold text_threshold : float)
    (w w' : World) (d : gmap string pyval) (t : list call) :
  run oracle
    (generate_mask_route image mask_model cloth_category
       sam_prompt_text sam_model sam_quant box_threshold text_threshold) w
  = (inr d, w', t) ->
  exists image_data extras mask,
    t = [Call (UploadFile_read image) (inr image_data);
         Call (generate_mask_from_image image_data mask_model extras)
           (inr mask)]
    /\ d !! "mask" = Some (PMask mask)
    /\ d !! "filename" =
       Some (match filename image with Some s => PStr s | None => PNone end)
    /\ size d = 2.
Proof.
  unfold generate_mask_route. cbv zeta. simpl.
  repeat answer_call; intros Hrun; try discriminate.
  injection Hrun as <- <- <-.
  do 3 eexists. split; [reflexivity |].
  split; [by simplify_map_eq |].
  split; [destruct (filename image); by simplify_map_eq |].
  rewrite map_size_insert_None by by simplify_map_eq.
  rewrite map_size_insert_None by by simplify_map_eq.
  by rewrite map_size_empty.
Qed.

(** X3. [generate_mask_route] reads the upload first.  If the read
    raises, [generate_mask_from_image] is not called and that exception
    is the outcome; if [generate_mask_from_image] raises, its exception
    is the outcome.  An exception never comes from anywhere else. *)
Theorem generate_mask_route_errors
    (image : UploadFile) (mask_model cloth_category : string)
    (sam_prompt_text sam_model sam_quant : string)
    (box_threshold text_threshold : float) (w : World) :
  let p := generate_mask_route image mask_model cloth_category
             sam_prompt_text sam_model sam_quant
             box_threshold text_threshold in
  (forall e w1,
     oracle _ (UploadFile_read image) w = (inl e, w1) ->
     run oracle p w = (inl e, w1, [Call (UploadFile_read image) (inl e)]))
  /\ (forall e w' t,
        run oracle p w = (inl e, w', t) ->
        t = [Call (UploadFile_read image) (inl e)]
        \/ exists image_data extras,
             t = [Call (UploadFile_read image) (inr image_data);
                  Call (generate_mask_from_image image_data mask_model extras)
                    (inl e)]).
Proof.
  intros p. subst p. unfold generate_mask_route. cbv zeta. simpl. split.
  - intros e w1 ->. reflexivity.
  - intros e w' t. repeat answer_call; intros Hrun; try discriminate;
      injection Hrun as <- <- <-; [by left | right; eauto].
Qed.

End MaskRoute.

(** ** [describe_image], the generation endpoints and the route table *)

Section MoreEndpoints.
Context `{Collaborators} {World : Type}.
Variable oracle : forall X, ext X -> World -> (Exception + X) * World.

Ltac answer_call :=
  match goal with
  | |- context [oracle ?X ?c ?w] =>
      let E := fresh "Hans" in
      destruct (oracle X c w) as [[?e | ?x] ?w] eqn:E; simpl
  end.

(** X4. [describe_image] stops at the first call that raises and lets
    its exception through: when the import of the interrogator raises,
    the image is not read; when [read_input_image] raises, neither
    [HWC3] nor an interrogator is called; when [HWC3] raises, no
    interrogator is called; and when the interrogator raises, no
    response is built. *)
Theorem describe_image_errors
    (image : UploadFile) (image_type : DescribeImageType)
    (f : interrogator_fn) (w : World) :
  (f = default_interrogator_photo <-> image_type = photo) ->
  let p := describe_image image image_type in
  (forall e w0,
     oracle _ (import_interrogator f) w = (inl e, w0) ->
     run oracle p w = (inl e, w0, [Call (import_interrogator f) (inl e)]))
  /\ (forall e w0 w1,
        oracle _ (import_interrogator f) w = (inr tt, w0) ->
        oracle _ (read_input_image image) w0 = (inl e, w1) ->
        run oracle p w =
        (inl e, w1,
         [Call (import_interrogator f) (inr tt);
          Call (read_input_image image) (inl e)]))
  /\ (forall x e w0 w1 w2,
        oracle _ (import_interrogator f) w = (inr tt, w0) ->
        oracle _ (read_input_image image) w0 = (inr x, w1) ->
        oracle _ (HWC3 x) w1 = (inl e, w2) ->
        run oracle p w =
        (inl e, w2,
         [Call (import_interrogator f) (inr tt);
          Call (read_input_image image) (inr x); Call (HWC3 x) (inl e)]))
  /\ (forall x img e w0 w1 w2 w3,
        oracle _ (import_interrogator f) w = (inr tt, w0) ->
        oracle _ (read_input_image image) w0 = (inr x, w1) ->
        oracle _ (HWC3 x) w1 = (inr img, w2) ->
        oracle _ (interrogate f img) w2 = (inl e, w3) ->
        run oracle p w =
        (inl e, w3,
         [Call (import_interrogator f) (inr tt);
          Call (read_input_image image) (inr x); Call (HWC3 x) (inr img);
          Call (interrogate f img) (inl e)])).
Proof.
  intros Hf%interrogator_for p. subst f p. unfold describe_image.
  destruct image_type; simpl; (split; [| split; [| split]]); intros;
    repeat match goal with
           | Hans : oracle _ _ _ = _ |- _ => rewrite Hans; simpl; clear Hans
           end;
    reflexivity.
Qed.

(** X6. What [call_worker] can receive as accept on a generation
    endpoint: [None] exactly when there is no Accept header and the
    query parameter is absent or empty; and the empty string only when
    the Accept header itself is the empty string, never from the query
    parameter. *)
Theorem accept_none_and_empty
    (g : generation_request) (w : World)
    (req : request) (accept : option string) :
  (req, accept) ∈ worker_calls (run oracle (handle_generation g) w).2 ->
  (accept = None <->
     header_accept g = None
     /\ (query_accept g = None \/ query_accept g = Some ""))
  /\ (accept = Some "" -> header_accept g = Some "").
Proof.
  rewrite worker_calls_generation, list_elem_of_singleton.
  intros [= _ ->]. unfold accept_when_nonempty.
  destruct (query_accept g) as [q |].
  - case_decide as Hq.
    + subst q. split; [| done]. split; [intros ->; auto | by intros [-> _]].
    + split.
      * split; [discriminate |]. intros [_ [Hq' | Hq']]; congruence.
      * intros [= ->]. done.
  - split; [| done]. split; [intros ->; auto | by intros [-> _]].
Qed.

(** X7. The upload arguments of the generation endpoints
    ([input_image], [cn_img1]) are not used by the handlers: two requests
    to the same endpoint that carry the same request object, Accept
    header and query parameter run identically, whatever files come with
    them. *)
Theorem generation_ignores_uploads (g g' : generation_request) (w : World) :
  parsed_request g = parsed_request g' ->
  header_accept g = header_accept g' ->
  query_accept g = query_accept g' ->
  run oracle (handle_generation g) w = run oracle (handle_generation g') w.
Proof.
  intros Hreq Hheader Hquery.
  rewrite !run_handle_generation. cbv zeta.
  by rewrite Hreq, Hheader, Hquery.
Qed.

(** X8. Each endpoint keeps to its own collaborators.  The generation
    endpoints never interrupt the worker and never touch an interrogator
    or the mask generator; [describe_image] and [generate_mask_route]
    never submit work to [call_worker] and never interrupt the worker;
    [stop] never submits work. *)
Theorem endpoints_keep_to_their_collaborators (w : World) :
  (forall g,
     let t := (run oracle (handle_generation g) w).2 in
     process_stop_calls t = 0 /\ interrogator_calls t = []
     /\ mask_calls t = [])
  /\ (forall image image_type,
        let t := (run oracle (describe_image image image_type) w).2 in
        worker_calls t = [] /\ process_stop_calls t = 0 /\ mask_calls t = [])
  /\ (forall image mask_model cloth_category sam_prompt_text sam_model
             sam_quant box_threshold text_threshold,
        let t := (run oracle
                    (generate_mask_route image mask_model cloth_category
                       sam_prompt_text sam_model sam_quant
                       box_threshold text_threshold) w).2 in
        worker_calls t = [] /\ process_stop_calls t = 0
        /\ interrogator_calls t = [])
  /\ (let t := (run oracle stop w).2 in
      worker_calls t = [] /\ interrogator_calls t = [] /\ mask_calls t = []).
Proof.
  split; [| split; [| split]].
  - intros g t. subst t. rewrite run_handle_generation.
    cbv zeta. answer_call; done.
  - intros image image_type t. subst t.
    unfold describe_image.
    destruct image_type; simpl; repeat answer_call; done.
  - intros image mask_model cloth_category sam_prompt_text sam_model
      sam_quant box_threshold text_threshold t. subst t.
    unfold generate_mask_route. cbv zeta. simpl. repeat answer_call; done.
  - unfold stop, stop_worker. simpl. answer_call; done.
Qed.

End MoreEndpoints.

(** X5. No route of the module is shadowed by another: looking a
    registered route up by its own path and method finds that very
    route, so each of the seven paths leads to its own endpoint
    function. *)
Theorem routes_not_shadowed (rt : route) (m : method) :
  rt ∈ routes secure_router -> m ∈ methods rt ->
  match_route secure_router m (path rt) = Some rt.
Proof.
  rewrite routes_secure_router. simpl. intros Hin.
  repeat (apply elem_of_cons in Hin as [-> | Hin]);
    try (by apply elem_of_nil in Hin);
    simpl; intros ->%list_elem_of_singleton; reflexivity.
Qed.

(** ** Concrete runs of the further properties *)

Section MoreConcrete.
#[local] Existing Instance sample.

Lemma generate_mask_extras_values_witness :
  mask_calls
    (run sample_oracle
       (generate_mask_route cat_png "u2net_cloth_seg" "upper" "the cat"
          "sam_vit_b_01ec64" "None" 0.5%float 0.25%float) 2).2
  = [([x89; x50; x4e; x47]%byte, "u2net_cloth_seg",
      {["cloth_category" := PStr "upper"]})].
Proof.
  apply (proj1 (generate_mask_extras_values sample_oracle cat_png
                  "u2net_cloth_seg" "upper" "the cat" "sam_vit_b_01ec64"
                  "None" 0.5%float 0.25%float 2 1
                  [x89; x50; x4e; x47]%byte eq_refl)).
  reflexivity.
Defined.

Lemma generate_mask_response_values_witness :
  exists d : gmap string pyval,
    (run sample_oracle
       (generate_mask_route cat_png "sam" "upper" "the cat"
          "sam_vit_b_01ec64" "None" 0.5%float 0.25%float) 2).1.1 = inr d
    /\ d !! "filename" = Some (PStr "cat.png")
    /\ size d = 2.
Proof.
  eexists. split; [reflexivity |].
  destruct (generate_mask_response_values sample_oracle cat_png "sam" "upper"
              "the cat" "sam_vit_b_01ec64" "None" 0.5%float 0.25%float
              2 0 _ _ eq_refl)
    as (image_data & extras & mask & _ & _ & Hfilename & Hsize).
  split; [exact Hfilename | exact Hsize].
Defined.

Lemma generate_mask_route_errors_witness :
  run sample_oracle
    (generate_mask_route cat_png "sam" "upper" "the cat"
       "sam_vit_b_01ec64" "None" 0.5%float 0.25%float) 0
  = (inl "unavailable", 0, [Call (UploadFile_read cat_png) (inl "unavailable")]).
Proof.
  apply (proj1 (generate_mask_route_errors sample_oracle cat_png "sam" "upper"
                  "the cat" "sam_vit_b_01ec64" "None" 0.5%float 0.25%float 0)).
  reflexivity.
Defined.

Lemma describe_image_errors_witness :
  run sample_oracle (describe_image cat_png anime) 2
  = (inl "unavailable", 0,
     [Call (import_interrogator default_interrogator_anime) (inr tt);
      Call (read_input_image cat_png) (inr 7);
      Call (HWC3 7) (inl "unavailable")]).
Proof.
  apply (proj1 (proj2 (proj2
           (describe_image_errors sample_oracle cat_png anime
              default_interrogator_anime 2
              ltac:(split; intros; discriminate))))
           7 "unavailable" 1 0 0).
  - reflexivity.
  - reflexivity.
  - reflexivity.
Defined.

Lemma accept_none_and_empty_witness :
  let g := @to_text2img_generation sample "a cat" None (Some "") in
  header_accept g = None
  /\ (query_accept g = None \/ query_accept g = Some "").
Proof.
  intros g.
  apply (proj1 (accept_none_and_empty sample_oracle g 1
                  (parsed_request g) None
                  ltac:(vm_compute; apply list_elem_of_here))).
  reflexivity.
Defined.

Lemma generation_ignores_uploads_witness :
  run sample_oracle
    (handle_generation
       (@to_img_upscale_or_vary sample cat_png "upscale 2x" None
          (Some "image/png"))) 1
  = run sample_oracle
      (handle_generation
         (@to_img_upscale_or_vary sample {| filename := None; file := 8 |}
            "upscale 2x" None (Some "image/png"))) 1.
Proof.
  apply generation_ignores_uploads; reflexivity.
Defined.

Lemma routes_not_shadowed_witness :
  match_route secure_router POST "/v1/generation/stop"
  = Some {| path := "/v1/generation/stop"; methods := [POST];
            route_endpoint := stop_fn;
            dependencies := [Depends api_key_auth]; tags := ["Default"] |}.
Proof.
  apply (routes_not_shadowed
           {| path := "/v1/generation/stop"; methods := [POST];
              route_endpoint := stop_fn;
              dependencies := [Depends api_key_auth]; tags := ["Default"] |}
           POST).
  - rewrite routes_secure_router. simpl. repeat constructor.
  - simpl. constructor.
Defined.

End MoreConcrete.
